(** * Continuous-variable statistics of qutip ([qutip/continous_variables.py])

    A shallow embedding of the module and the proofs of its properties.

    The module is a handful of list comprehensions and formulas over
    Python objects that it does not implement itself: [Qobj] operators
    with [+], [-], [*], [/] and [.dag()], [qutip.expect], and numpy's
    [sqrt], [log], [real] and [linalg.det].  Python is dynamically
    typed, so the embedding has one universe of values ([value]) and an
    interface [PyEnv] of the operations the module calls on it; the
    functions of the module are written once, for every implementation
    of that interface.  The operations of the interface are total: the
    exceptions the model tracks are those of the module itself (its two
    [ValueError]s) and of indexing a matrix out of range. *)

From Stdlib Require Import ZArith Lia.
From stdpp Require Import base list strings.

Local Open Scope Z_scope.

(** ** Exceptions and results *)

Inductive exn : Type :=
| ValueError (msg : string)
| IndexError.

Inductive result (A : Type) : Type :=
| Ok (a : A)
| Raise (e : exn).

Arguments Ok {A} a.
Arguments Raise {A} e.

#[global] Instance result_ret : MRet result := fun A a => Ok a.

#[global] Instance result_bind : MBind result := fun A B f m =>
  match m with
  | Ok a => f a
  | Raise e => Raise e
  end.

(** ** The objects the module works on *)

Class PyEnv (value : Type) : Type := {
  (* Python's binary operators, on numbers and on Qobj alike *)
  py_add : value -> value -> value;
  py_sub : value -> value -> value;
  py_mul : value -> value -> value;
  py_div : value -> value -> value;
  py_pow : value -> value -> value;
  py_neg : value -> value;
  (* [a > b], as [max] evaluates it *)
  py_gt : value -> value -> bool;
  (* the literals: an int, and [1j] *)
  py_int : Z -> value;
  py_1j : value;
  (* Qobj.dag and qutip.expect *)
  dag : value -> value;
  expect : value -> value -> value;
  (* numpy *)
  np_sqrt : value -> value;
  np_log : value -> value;
  np_real : value -> value;
  np_linalg_det : list (list value) -> value
}.

Declare Scope py_scope.
Delimit Scope py_scope with py.
Notation "a + b" := (py_add a b) : py_scope.
Notation "a - b" := (py_sub a b) : py_scope.
Notation "a * b" := (py_mul a b) : py_scope.
Notation "a / b" := (py_div a b) : py_scope.
Notation "a ^ b" := (py_pow a b) : py_scope.
Notation "- a" := (py_neg a) : py_scope.

(** A two-dimensional array, row by row. *)
Definition matrix (value : Type) : Type := list (list value).

(** [shape M = (n, m)] for a rectangular array. *)
Definition has_shape {A : Type} (n m : nat) (M : list (list A)) : Prop :=
  length M = n /\ Forall (fun row => length row = m) M.

(** [M[i][j]], when both indices are in range. *)
Definition entry {A : Type} (M : list (list A)) (i j : nat) : option A :=
  row ← M !! i; row !! j.

(** [R[i, j]] on an array: IndexError out of range. *)
Definition getitem2 {A : Type} (R : list (list A)) (i j : nat) : result A :=
  match R !! i with
  | Some row =>
      match row !! j with
      | Some x => Ok x
      | None => Raise IndexError
      end
  | None => Raise IndexError
  end.

(** [l[lo:hi]]: a slice never raises, it is cut at the end of [l]. *)
Definition py_slice {A : Type} (lo hi : nat) (l : list A) : list A :=
  take (hi - lo) (drop lo l).

(** [V[r0:r1, c0:c1]] *)
Definition slice2 {A : Type} (r0 r1 c0 c1 : nat) (V : list (list A))
  : list (list A) :=
  py_slice c0 c1 <$> py_slice r0 r1 V.

(** [range(n)] *)
Definition range (n : nat) : list nat := seq 0 n.

(** The messages of the two ValueErrors of [wigner_covariance_matrix]. *)
Definition msg_rho : string :=
  String.append "Must give rho if using field operators " "(a1 and a2)".

Definition msg_fields_or_R : string :=
  String.append "Must give either field operators (a1 and a2) "
                "or a precomputed correlation matrix (R)".

Section ContinuousVariables.
Context {value : Type} `{PyEnv value}.

(** [max(a, b)] of two arguments: [b] replaces [a] when [b > a]. *)
Definition py_max (a b : value) : value :=
  if py_gt b a then b else a.

(** lines 30-54 *)
Definition covariance_matrix (basis : list value) (rho : value)
  : matrix value :=
  (fun op2 =>
     (fun op1 =>
        (expect (op1 * op2 + op2 * op1) rho
         - expect op1 rho * expect op2 rho)%py) <$> basis) <$> basis.

(** lines 183-195; [rho = None] is Python's [rho is None] *)
Definition _correlation_matrix (basis : list value) (rho : option value)
  : matrix value :=
  match rho with
  | None =>
      (fun op2 => (fun op1 => (op1 * op2)%py) <$> basis) <$> basis
  | Some rho =>
      (fun op2 => (fun op1 => expect (op1 * op2)%py rho) <$> basis) <$> basis
  end.

(** lines 57-85 *)
Definition correlation_matrix_field (a1 a2 : value) (rho : option value)
  : matrix value :=
  let basis := [a1; dag a1; a2; dag a2] in
  _correlation_matrix basis rho.

(** lines 88-121 *)
Definition correlation_matrix_quadrature (a1 a2 : value) (rho : option value)
  : matrix value :=
  let x1 := ((a1 + dag a1) / np_sqrt (py_int 2))%py in
  let p1 := (py_1j * (a1 - dag a1) / np_sqrt (py_int 2))%py in
  let x2 := ((a2 + dag a2) / np_sqrt (py_int 2))%py in
  let p2 := (py_1j * (a2 - dag a2) / np_sqrt (py_int 2))%py in
  let basis := [x1; p1; x2; p2] in
  _correlation_matrix basis rho.

(** lines 124-159 *)
Definition wigner_covariance_matrix
    (a1 a2 : option value) (R : option (matrix value)) (rho : option value)
  : result (matrix value) :=
  match R with
  | Some R =>
      match rho with
      | None =>
          mapM (fun j =>
            mapM (fun i =>
              rij ← getitem2 R i j;
              rji ← getitem2 R j i;
              mret (np_real (rij + rji)%py)) (range 4)) (range 4)
      | Some rho =>
          mapM (fun j =>
            mapM (fun i =>
              rij ← getitem2 R i j;
              rji ← getitem2 R j i;
              mret (np_real (expect (rij + rji)%py rho))) (range 4)) (range 4)
      end
  | None =>
      match a1, a2 with
      | Some a1, Some a2 =>
          match rho with
          | Some rho =>
              let x1 := ((a1 + dag a1) / np_sqrt (py_int 2))%py in
              let p1 := (py_1j * (a1 - dag a1) / np_sqrt (py_int 2))%py in
              let x2 := ((a2 + dag a2) / np_sqrt (py_int 2))%py in
              let p2 := (py_1j * (a2 - dag a2) / np_sqrt (py_int 2))%py in
              Ok (covariance_matrix [x1; p1; x2; p2] rho)
          | None => Raise (ValueError msg_rho)
          end
      | _, _ => Raise (ValueError msg_fields_or_R)
      end
  end.

(** lines 162-181 *)
Definition wigner_logarithm_negativity (V : matrix value) : value :=
  let A := slice2 0 2 0 2 V in
  let B := slice2 2 4 2 4 V in
  let C := slice2 0 2 2 4 V in
  let sigma :=
    (np_linalg_det A + np_linalg_det B - py_int 2 * np_linalg_det C)%py in
  let nu :=
    np_sqrt (sigma / py_int 2
             - np_sqrt (sigma ^ py_int 2 - py_int 4 * np_linalg_det V)
               / py_int 2)%py in
  let lognu := (- np_log (py_int 2 * nu))%py in
  let logneg := py_max (py_int 0) lognu in
  logneg.

End ContinuousVariables.

(** ** A small implementation of the interface

    Two-by-two integer matrices: operators are matrices, a number [z] is
    the matrix [z * I], [expect a rho] is the trace of [a * rho], and
    [1j] is the matrix whose square is [-I].  Products of operators do
    not commute here, so the row and column conventions of the module
    can be observed on it. *)

Module Mat2.

Record t : Type := mk { m00 : Z; m01 : Z; m10 : Z; m11 : Z }.

Definition scal (z : Z) : t := mk z 0 0 z.

Definition add (a b : t) : t :=
  mk (m00 a + m00 b) (m01 a + m01 b) (m10 a + m10 b) (m11 a + m11 b).

Definition sub (a b : t) : t :=
  mk (m00 a - m00 b) (m01 a - m01 b) (m10 a - m10 b) (m11 a - m11 b).

Definition mul (a b : t) : t :=
  mk (m00 a * m00 b + m01 a * m10 b) (m00 a * m01 b + m01 a * m11 b)
     (m10 a * m00 b + m11 a * m10 b) (m10 a * m01 b + m11 a * m11 b).

(* division by a number *)
Definition div (a b : t) : t :=
  mk (m00 a / m00 b) (m01 a / m00 b) (m10 a / m00 b) (m11 a / m00 b).

Definition pow (a b : t) : t := scal (m00 a ^ m00 b).

Definition neg (a : t) : t := mk (- m00 a) (- m01 a) (- m10 a) (- m11 a).

Definition gt (a b : t) : bool := m00 a >? m00 b.

Definition imag : t := mk 0 (-1) 1 0.

Definition transpose (a : t) : t := mk (m00 a) (m10 a) (m01 a) (m11 a).

Definition trace (a : t) : Z := m00 a + m11 a.

Definition expectation (a rho : t) : t := scal (trace (mul a rho)).

(* the determinant of an array of numbers, along the first row *)
Fixpoint det_rows (n : nat) (M : list (list Z)) : Z :=
  match n, M with
  | S n, row :: rest =>
      foldr Z.add 0
        (imap (fun j x =>
                 (if Nat.even j then x else - x)
                 * det_rows n (delete j <$> rest)) row)
  | _, _ => 1
  end.

Definition det (M : list (list t)) : t :=
  scal (det_rows (length M) ((fun row : list t => m00 <$> row) <$> M)).

#[global] Instance env : PyEnv t := {|
  py_add := add; py_sub := sub; py_mul := mul; py_div := div;
  py_pow := pow; py_neg := neg; py_gt := gt;
  py_int := scal; py_1j := imag;
  dag := transpose; expect := expectation;
  np_sqrt := fun a => scal (Z.sqrt (m00 a));
  np_log := fun a => scal (Z.log2 (m00 a));
  np_real := fun a => a;
  np_linalg_det := det
|}.

(* three operators and a state *)
Definition sx : t := mk 0 1 1 0.
Definition sz : t := mk 1 0 0 (-1).
Definition lower : t := mk 0 1 0 0.
Definition up : t := mk 1 0 0 0.

(* the identity as a 4x4 array of numbers *)
Definition I4 : matrix t :=
  [[scal 1; scal 0; scal 0; scal 0];
   [scal 0; scal 1; scal 0; scal 0];
   [scal 0; scal 0; scal 1; scal 0];
   [scal 0; scal 0; scal 0; scal 1]].

(* a 4x4 array of numbers [4 * i + j] *)
Definition R16 : matrix t :=
  (fun i => (fun j => scal (Z.of_nat (4 * i + j))) <$> range 4) <$> range 4.

End Mat2.

(** Arrays of numbers that are not 4x4: 5x5 with [5 * i + j], and 3x4. *)
Definition Mat2_R25 : matrix Mat2.t :=
  (fun i => (fun j => Mat2.scal (Z.of_nat (5 * i + j))) <$> range 5) <$> range 5.

(** A state with coherences, on which first moments do not vanish. *)
Definition Mat2_ones : Mat2.t := Mat2.mk 1 1 1 1.

(** [Mat2.R16] with a fifth column. *)
Definition Mat2_R16_wide : matrix Mat2.t :=
  (fun row => row ++ [Mat2.scal 99]) <$> Mat2.R16.

Definition Mat2_R34 : matrix Mat2.t :=
  (fun i => (fun j => Mat2.scal (Z.of_nat (4 * i + j))) <$> range 4) <$> range 3.

(** ** The calls the module makes

    The functions of the module once more, now with a log of every call
    they make into qutip and numpy, in the order in which Python
    evaluates them: the operands of an operator from left to right, the
    arguments of a call before the call, the inner comprehension for
    each element of the outer one.  A call is logged when it is made, so
    the log of a run that raises ends with the call that raised, and a
    run that has made no call has the empty log. *)

Inductive call (value : Type) : Type :=
| CallAdd (a b : value)
| CallSub (a b : value)
| CallMul (a b : value)
| CallDiv (a b : value)
| CallDag (a : value)
| CallExpect (a rho : value)
| CallSqrt (a : value)
| CallReal (a : value)
| CallGetitem (R : list (list value)) (i j : nat)
| CallArray (rows : list (list value)).

Arguments CallAdd {value} a b.
Arguments CallSub {value} a b.
Arguments CallMul {value} a b.
Arguments CallDiv {value} a b.
Arguments CallDag {value} a.
Arguments CallExpect {value} a rho.
Arguments CallSqrt {value} a.
Arguments CallReal {value} a.
Arguments CallGetitem {value} R i j.
Arguments CallArray {value} rows.

(** The log of a run and its outcome. *)
Definition traced (value A : Type) : Type := (list (call value) * result A)%type.

#[global] Instance traced_ret {value : Type} : MRet (traced value) :=
  fun A a => ([], Ok a).

#[global] Instance traced_bind {value : Type} : MBind (traced value) :=
  fun A B f m =>
    match m.2 with
    | Ok a => (m.1 ++ (f a).1, (f a).2)
    | Raise e => (m.1, Raise e)
    end.

Section Traced.
Context {value : Type} `{PyEnv value}.

(** A call that returns [v]. *)
Definition log_call (c : call value) (v : value) : traced value value :=
  ([c], Ok v).

Definition t_add (a b : value) : traced value value :=
  log_call (CallAdd a b) (a + b)%py.
Definition t_sub (a b : value) : traced value value :=
  log_call (CallSub a b) (a - b)%py.
Definition t_mul (a b : value) : traced value value :=
  log_call (CallMul a b) (a * b)%py.
Definition t_div (a b : value) : traced value value :=
  log_call (CallDiv a b) (a / b)%py.
Definition t_dag (a : value) : traced value value :=
  log_call (CallDag a) (dag a).
Definition t_expect (a rho : value) : traced value value :=
  log_call (CallExpect a rho) (expect a rho).
Definition t_sqrt (a : value) : traced value value :=
  log_call (CallSqrt a) (np_sqrt a).
Definition t_real (a : value) : traced value value :=
  log_call (CallReal a) (np_real a).

(** [R[i, j]] *)
Definition t_getitem (R : matrix value) (i j : nat) : traced value value :=
  ([CallGetitem R i j], getitem2 R i j).

(** [np.array(rows)] *)
Definition t_array (rows : matrix value) : traced value (matrix value) :=
  ([CallArray rows], Ok rows).

(** [raise e], which calls nothing. *)
Definition t_raise {A : Type} (e : exn) : traced value A := ([], Raise e).

(** lines 51-54 *)
Definition covariance_matrix_traced (basis : list value) (rho : value)
  : traced value (matrix value) :=
  rows ← mapM (fun op2 =>
            mapM (fun op1 =>
              m12 ← t_mul op1 op2;
              m21 ← t_mul op2 op1;
              s ← t_add m12 m21;
              e ← t_expect s rho;
              e1 ← t_expect op1 rho;
              e2 ← t_expect op2 rho;
              p ← t_mul e1 e2;
              t_sub e p) basis) basis;
  t_array rows.

(** lines 134-159 *)
Definition wigner_covariance_matrix_traced
    (a1 a2 : option value) (R : option (matrix value)) (rho : option value)
  : traced value (matrix value) :=
  match R with
  | Some R =>
      match rho with
      | None =>
          rows ← mapM (fun j =>
                    mapM (fun i =>
                      rij ← t_getitem R i j;
                      rji ← t_getitem R j i;
                      s ← t_add rij rji;
                      t_real s) (range 4)) (range 4);
          t_array rows
      | Some rho =>
          rows ← mapM (fun j =>
                    mapM (fun i =>
                      rij ← t_getitem R i j;
                      rji ← t_getitem R j i;
                      s ← t_add rij rji;
                      e ← t_expect s rho;
                      t_real e) (range 4)) (range 4);
          t_array rows
      end
  | None =>
      match a1, a2 with
      | Some a1, Some a2 =>
          match rho with
          | Some rho =>
              x1 ← (d ← t_dag a1; s ← t_add a1 d;
                    r ← t_sqrt (py_int 2); t_div s r);
              p1 ← (d ← t_dag a1; s ← t_sub a1 d; m ← t_mul py_1j s;
                    r ← t_sqrt (py_int 2); t_div m r);
              x2 ← (d ← t_dag a2; s ← t_add a2 d;
                    r ← t_sqrt (py_int 2); t_div s r);
              p2 ← (d ← t_dag a2; s ← t_sub a2 d; m ← t_mul py_1j s;
                    r ← t_sqrt (py_int 2); t_div m r);
              covariance_matrix_traced [x1; p1; x2; p2] rho
          | None => t_raise (ValueError msg_rho)
          end
      | _, _ => t_raise (ValueError msg_fields_or_R)
      end
  end.

End Traced.

(** ** Lemmas on arrays and on results *)

Section Arrays.
Context {A B : Type}.

(** A comprehension [[f x y for x in l] for y in l] is square. *)
Lemma has_shape_comprehension (f : A -> A -> B) (l : list A) :
  has_shape (length l) (length l) ((fun y => (fun x => f x y) <$> l) <$> l).
Proof.
  split.
  - by rewrite length_fmap.
  - apply Forall_fmap, Forall_forall. intros y _. simpl.
    by rewrite length_fmap.
Qed.

(** Its entry in row [r], column [c] is [f l[c] l[r]]. *)
Lemma entry_comprehension (f : A -> A -> B) (l : list A) r c x y :
  l !! r = Some y -> l !! c = Some x ->
  entry ((fun y => (fun x => f x y) <$> l) <$> l) r c = Some (f x y).
Proof.
  intros Hr Hc. unfold entry.
  rewrite list_lookup_fmap, Hr. simpl.
  by rewrite list_lookup_fmap, Hc.
Qed.

Lemma getitem2_entry (R : list (list A)) i j x :
  entry R i j = Some x -> getitem2 R i j = Ok x.
Proof.
  unfold entry, getitem2. destruct (R !! i) as [row|]; simpl; [|done].
  by intros ->.
Qed.

(** Indexing raises nothing but IndexError. *)
Lemma getitem2_raise (R : list (list A)) i j e :
  getitem2 R i j = Raise e -> e = IndexError.
Proof.
  unfold getitem2. destruct (R !! i) as [row|]; [|congruence].
  destruct (row !! j); congruence.
Qed.

(** A comprehension raises what one of its elements raises. *)
Lemma mapM_raise (f : A -> result B) (l : list A) e :
  mapM f l = Raise e -> exists x, x ∈ l /\ f x = Raise e.
Proof.
  induction l as [|a l IH]; simpl; [discriminate|].
  destruct (f a) as [b|e'] eqn:Hfa; simpl.
  - destruct (mapM f l) as [bs|e'']; simpl; [discriminate|].
    intros [= ->]. destruct IH as (x & Hx & Hfx); [done|].
    exists x. split; [by right | done].
  - intros [= ->]. exists a. split; [by left | done].
Qed.

(** A 4x4 array is four rows of four entries. *)
Lemma has_shape_4_4 (R : list (list A)) :
  has_shape 4 4 R ->
  exists r00 r01 r02 r03 r10 r11 r12 r13 r20 r21 r22 r23 r30 r31 r32 r33,
    R = [[r00; r01; r02; r03]; [r10; r11; r12; r13];
         [r20; r21; r22; r23]; [r30; r31; r32; r33]].
Proof.
  intros [Hlen Hrows].
  destruct R as [|w0 [|w1 [|w2 [|w3 [|? ?]]]]]; try discriminate.
  clear Hlen.
  repeat match goal with
         | Hf : Forall _ (_ :: _) |- _ => apply Forall_cons in Hf as [? Hf]
         end.
  repeat match goal with
         | Hl : length ?w = 4%nat |- _ =>
             destruct w as [|? [|? [|? [|? [|? ?]]]]]; try discriminate;
             clear Hl
         end.
  by repeat eexists.
Qed.

End Arrays.

(** ** Properties of the module *)

Section Properties.
Context {value : Type} `{PyEnv value}.

Lemma py_max_cases (a b : value) :
  py_max a b = a \/ (py_max a b = b /\ py_gt b a = true).
Proof. unfold py_max. destruct (py_gt b a); auto. Qed.

(** The [R] branch of [wigner_covariance_matrix] raises no ValueError. *)
Lemma symmetrize_no_ValueError (R : matrix value) (g : value -> value) msg :
  mapM (fun j =>
    mapM (fun i =>
      rij ← getitem2 R i j;
      rji ← getitem2 R j i;
      mret (g (rij + rji)%py)) (range 4)) (range 4)
  <> Raise (ValueError msg).
Proof.
  intros Hout.
  apply mapM_raise in Hout as (j & _ & Hrow).
  apply mapM_raise in Hrow as (i & _ & Hcell).
  destruct (getitem2 R i j) as [rij|e] eqn:Hij; simpl in Hcell.
  - destruct (getitem2 R j i) as [rji|e] eqn:Hji; simpl in Hcell.
    + discriminate.
    + injection Hcell as ->. by apply getitem2_raise in Hji.
  - injection Hcell as ->. by apply getitem2_raise in Hij.
Qed.

(** The entry of [covariance_matrix] in the row of [op2] and the column
    of [op1]. *)
Lemma covariance_matrix_entry (basis : list value) (rho : value)
    (row col : nat) (op1 op2 : value) :
  basis !! row = Some op2 ->
  basis !! col = Some op1 ->
  entry (covariance_matrix basis rho) row col
  = Some (expect (op1 * op2 + op2 * op1) rho
          - expect op1 rho * expect op2 rho)%py.
Proof.
  apply (entry_comprehension
           (fun op1 op2 => (expect (op1 * op2 + op2 * op1) rho
                            - expect op1 rho * expect op2 rho)%py)).
Qed.

(** C1. For a 4x4 array [V], [wigner_logarithm_negativity V] is
    [max(0, lognu)] where [sigma] is [det] of the upper left 2x2 block
    plus [det] of the lower right block minus twice [det] of the upper
    right block, [nu = sqrt(sigma/2 - sqrt(sigma**2 - 4*det(V))/2)] and
    [lognu = -log(2*nu)]; so the result is [lognu] when [lognu > 0] and
    [0] otherwise, and is never below zero. *)
Theorem wigner_logarithm_negativity_formula
    (v00 v01 v02 v03 v10 v11 v12 v13
     v20 v21 v22 v23 v30 v31 v32 v33 : value) :
  let V := [[v00; v01; v02; v03]; [v10; v11; v12; v13];
            [v20; v21; v22; v23]; [v30; v31; v32; v33]] in
  let sigma :=
    (np_linalg_det [[v00; v01]; [v10; v11]]
     + np_linalg_det [[v22; v23]; [v32; v33]]
     - py_int 2 * np_linalg_det [[v02; v03]; [v12; v13]])%py in
  let nu :=
    np_sqrt (sigma / py_int 2
             - np_sqrt (sigma ^ py_int 2 - py_int 4 * np_linalg_det V)
               / py_int 2)%py in
  let lognu := (- np_log (py_int 2 * nu))%py in
  wigner_logarithm_negativity V = py_max (py_int 0) lognu
  /\ wigner_logarithm_negativity V
     = (if py_gt lognu (py_int 0) then lognu else py_int 0)
  /\ (wigner_logarithm_negativity V = py_int 0
      \/ py_gt (wigner_logarithm_negativity V) (py_int 0) = true).
Proof.
  intros V sigma nu lognu.
  assert (Heq : wigner_logarithm_negativity V = py_max (py_int 0) lognu)
    by reflexivity.
  split; [exact Heq|]. split; [exact Heq|].
  rewrite Heq.
  destruct (py_max_cases (py_int 0) lognu) as [-> | [-> Hgt]]; auto.
Qed.

(** C2. [covariance_matrix(basis, rho)] is an NxN array whose entry in
    the row of [op2] and the column of [op1] is
    [expect(op1*op2 + op2*op1, rho) - expect(op1, rho)*expect(op2, rho)]. *)
Theorem covariance_matrix_entries (basis : list value) (rho : value) :
  has_shape (length basis) (length basis) (covariance_matrix basis rho)
  /\ forall (row col : nat) (op1 op2 : value),
       basis !! row = Some op2 ->
       basis !! col = Some op1 ->
       entry (covariance_matrix basis rho) row col
       = Some (expect (op1 * op2 + op2 * op1) rho
               - expect op1 rho * expect op2 rho)%py.
Proof.
  split.
  - apply (has_shape_comprehension
             (fun op1 op2 => (expect (op1 * op2 + op2 * op1) rho
                              - expect op1 rho * expect op2 rho)%py)).
  - intros row col op1 op2. apply covariance_matrix_entry.
Qed.

(** C3. With [R] a 4x4 array (and [+] commutative, as it is on numbers
    and on Qobj), [wigner_covariance_matrix] returns the 4x4 array with
    [V[i][j] = real(R[i][j] + R[j][i])] when [rho] is None, and with
    [V[i][j] = real(expect(R[i][j] + R[j][i], rho))] when [rho] is given. *)
Theorem wigner_covariance_matrix_from_R
    (a1 a2 : option value) (R : matrix value) :
  has_shape 4 4 R ->
  (forall x y : value, (x + y)%py = (y + x)%py) ->
  (exists V,
      wigner_covariance_matrix a1 a2 (Some R) None = Ok V
      /\ has_shape 4 4 V
      /\ forall i j rij rji,
           entry R i j = Some rij -> entry R j i = Some rji ->
           entry V i j = Some (np_real (rij + rji)%py))
  /\ (forall rho, exists V,
      wigner_covariance_matrix a1 a2 (Some R) (Some rho) = Ok V
      /\ has_shape 4 4 V
      /\ forall i j rij rji,
           entry R i j = Some rij -> entry R j i = Some rji ->
           entry V i j = Some (np_real (expect (rij + rji)%py rho))).
Proof.
  intros Hshape Hcomm.
  apply has_shape_4_4 in Hshape
    as (r00 & r01 & r02 & r03 & r10 & r11 & r12 & r13
        & r20 & r21 & r22 & r23 & r30 & r31 & r32 & r33 & ->).
  split; [|intros rho].
  all: eexists; split; [reflexivity|]; split.
  all: try (split; [reflexivity | repeat constructor]).
  all: intros i j rij rji Hij Hji.
  all: destruct i as [|[|[|[|i]]]]; destruct j as [|[|[|[|j]]]].
  all: simpl in Hij, Hji; try discriminate.
  all: injection Hij as <-; injection Hji as <-; simpl.
  all: first [ reflexivity
             | cbn; do 2 f_equal; apply Hcomm
             | cbn; do 3 f_equal; apply Hcomm ].
Qed.

(** C4 (amended). With [a1] and [a2] given and [R] and [rho] omitted,
    [wigner_covariance_matrix] raises ValueError with the message
    "Must give rho if using field operators (a1 and a2)"; with [R]
    omitted and [a1] or [a2] omitted it raises ValueError with the
    message "Must give either field operators (a1 and a2) or a
    precomputed correlation matrix (R)".  In both cases the log of the
    calls made before the error is empty: no operator is conjugated,
    added or multiplied, no expectation value is taken and no array is
    indexed or built. *)
Theorem wigner_covariance_matrix_errors :
  (forall a1 a2 : value,
      wigner_covariance_matrix (Some a1) (Some a2) None None
      = Raise (ValueError
                 "Must give rho if using field operators (a1 and a2)")
      /\ wigner_covariance_matrix_traced (Some a1) (Some a2) None None
         = ([], Raise (ValueError
                         "Must give rho if using field operators (a1 and a2)")))
  /\ (forall (a1 a2 rho : option value),
        a1 = None \/ a2 = None ->
        wigner_covariance_matrix a1 a2 None rho
        = Raise (ValueError
                   "Must give either field operators (a1 and a2) or a precomputed correlation matrix (R)")
        /\ wigner_covariance_matrix_traced a1 a2 None rho
           = ([], Raise (ValueError
                           "Must give either field operators (a1 and a2) or a precomputed correlation matrix (R)"))).
Proof.
  split.
  - intros a1 a2. split; reflexivity.
  - intros a1 a2 rho [-> | ->]; [|destruct a1]; split; reflexivity.
Qed.

(** C5. [_correlation_matrix(basis)] without [rho] is the NxN array
    with [M[row][col] = basis[col] * basis[row]], a plain product; with
    [rho] it is the NxN array with
    [M[row][col] = expect(basis[col] * basis[row], rho)]. *)
Theorem correlation_matrix_entries (basis : list value) :
  (has_shape (length basis) (length basis) (_correlation_matrix basis None)
   /\ forall (row col : nat) (b_row b_col : value),
        basis !! row = Some b_row ->
        basis !! col = Some b_col ->
        entry (_correlation_matrix basis None) row col
        = Some (b_col * b_row)%py)
  /\ forall rho : value,
       has_shape (length basis) (length basis)
                 (_correlation_matrix basis (Some rho))
       /\ forall (row col : nat) (b_row b_col : value),
            basis !! row = Some b_row ->
            basis !! col = Some b_col ->
            entry (_correlation_matrix basis (Some rho)) row col
            = Some (expect (b_col * b_row)%py rho).
Proof.
  split; [|intros rho]; (split; [|intros row col b_row b_col Hrow Hcol]).
  - apply (has_shape_comprehension (fun op1 op2 => (op1 * op2)%py)).
  - by apply (entry_comprehension (fun op1 op2 => (op1 * op2)%py)).
  - apply (has_shape_comprehension
             (fun op1 op2 => expect (op1 * op2)%py rho)).
  - by apply (entry_comprehension
                (fun op1 op2 => expect (op1 * op2)%py rho)).
Qed.

(** C6. [correlation_matrix_quadrature(a1, a2, rho)] builds
    [x1 = (a1 + a1.dag())/sqrt(2)], [p1 = 1j*(a1 - a1.dag())/sqrt(2)],
    [x2], [p2] likewise from [a2], and returns
    [_correlation_matrix([x1, p1, x2, p2], rho)], a 4x4 array. *)
Theorem correlation_matrix_quadrature_spec
    (a1 a2 : value) (rho : option value) :
  let x1 := ((a1 + dag a1) / np_sqrt (py_int 2))%py in
  let p1 := (py_1j * (a1 - dag a1) / np_sqrt (py_int 2))%py in
  let x2 := ((a2 + dag a2) / np_sqrt (py_int 2))%py in
  let p2 := (py_1j * (a2 - dag a2) / np_sqrt (py_int 2))%py in
  correlation_matrix_quadrature a1 a2 rho
  = _correlation_matrix [x1; p1; x2; p2] rho
  /\ has_shape 4 4 (correlation_matrix_quadrature a1 a2 rho).
Proof.
  intros x1 p1 x2 p2. split; [reflexivity|].
  destruct rho; (split; [reflexivity | repeat constructor]).
Qed.

(** C7. When [+] is commutative and expectation values commute under
    [*], [covariance_matrix(basis, rho)] is symmetric:
    [C[i][j] = C[j][i]] for all [i], [j] below N, for every basis, so
    for every basis of Hermitian operators. *)
Theorem covariance_matrix_symmetric (basis : list value) (rho : value) :
  (forall x y : value, (x + y)%py = (y + x)%py) ->
  (forall a b : value,
      (expect a rho * expect b rho)%py = (expect b rho * expect a rho)%py) ->
  forall i j : nat,
    (i < length basis)%nat -> (j < length basis)%nat ->
    exists c : value,
      entry (covariance_matrix basis rho) i j = Some c
      /\ entry (covariance_matrix basis rho) j i = Some c.
Proof.
  intros Hadd Hmul i j Hi Hj.
  apply lookup_lt_is_Some_2 in Hi as [bi Hbi].
  apply lookup_lt_is_Some_2 in Hj as [bj Hbj].
  exists (expect (bj * bi + bi * bj) rho - expect bj rho * expect bi rho)%py.
  split.
  - by apply covariance_matrix_entry.
  - rewrite (covariance_matrix_entry basis rho j i bi bj Hbj Hbi).
    by rewrite (Hadd (bi * bj)%py), (Hmul bi bj).
Qed.

(** C8. [wigner_logarithm_negativity(V)] is never below zero: it is
    [0], or it is greater than [0]; for every [V], so for every
    covariance matrix of a physical state. *)
Theorem wigner_logarithm_negativity_nonneg (V : matrix value) :
  wigner_logarithm_negativity V = py_int 0
  \/ py_gt (wigner_logarithm_negativity V) (py_int 0) = true.
Proof.
  unfold wigner_logarithm_negativity.
  match goal with
  | |- context [py_max ?a ?b] =>
      destruct (py_max_cases a b) as [-> | [-> Hgt]]; auto
  end.
Qed.

(** C9. When [R] is given, the result of [wigner_covariance_matrix]
    does not depend on [a1] and [a2]. *)
Theorem wigner_covariance_matrix_R_ignores_fields
    (a1 a2 a1' a2' : option value) (R : matrix value) (rho : option value) :
  wigner_covariance_matrix a1 a2 (Some R) rho
  = wigner_covariance_matrix a1' a2' (Some R) rho.
Proof. reflexivity. Qed.

(** C10. With [R] omitted and exactly one of [a1], [a2] given,
    [wigner_covariance_matrix] raises the "Must give either field
    operators ..." error, with or without [rho]; and whenever it raises
    the "Must give rho ..." error, [a1] and [a2] are both given. *)
Theorem wigner_covariance_matrix_one_field_missing :
  (forall (a : value) (rho : option value),
      wigner_covariance_matrix (Some a) None None rho
      = Raise (ValueError
                 "Must give either field operators (a1 and a2) or a precomputed correlation matrix (R)")
      /\ wigner_covariance_matrix None (Some a) None rho
         = Raise (ValueError
                    "Must give either field operators (a1 and a2) or a precomputed correlation matrix (R)"))
  /\ (forall (a1 a2 : option value) (R : option (matrix value))
             (rho : option value),
        wigner_covariance_matrix a1 a2 R rho
        = Raise (ValueError
                   "Must give rho if using field operators (a1 and a2)") ->
        is_Some a1 /\ is_Some a2).
Proof.
  split.
  - intros a rho. split; reflexivity.
  - intros a1 a2 [R|] rho Hraise.
    + exfalso. destruct rho as [rho|]; simpl in Hraise.
      * by apply (symmetrize_no_ValueError
                    R (fun v => np_real (expect v rho))) in Hraise.
      * by apply (symmetrize_no_ValueError R np_real) in Hraise.
    + destruct a1 as [a1|], a2 as [a2|]; simpl in Hraise;
        try (vm_compute in Hraise; discriminate).
      split; eexists; reflexivity.
Qed.

End Properties.

(** ** The properties on two-by-two matrices *)

Lemma Mat2_add_comm (x y : Mat2.t) : (x + y)%py = (y + x)%py.
Proof. destruct x, y. cbn. unfold Mat2.add. cbn. f_equal; lia. Qed.

Lemma Mat2_expect_mul_comm (a b rho : Mat2.t) :
  (expect a rho * expect b rho)%py = (expect b rho * expect a rho)%py.
Proof. cbn. unfold Mat2.expectation, Mat2.mul, Mat2.scal. cbn. f_equal; lia. Qed.

Lemma Mat2_R16_shape : has_shape 4 4 Mat2.R16.
Proof. split; [reflexivity | repeat constructor]. Qed.

Example covariance_matrix_Mat2 :
  covariance_matrix [Mat2.sx; Mat2.sz; Mat2.lower] Mat2.up
  = [[Mat2.scal 2; Mat2.scal 0; Mat2.scal 1];
     [Mat2.scal 0; Mat2.scal 1; Mat2.scal 0];
     [Mat2.scal 1; Mat2.scal 0; Mat2.scal 0]].
Proof. reflexivity. Qed.

(** The product is not symmetrized: row 0, column 1 holds [sz * sx],
    row 1, column 0 holds [sx * sz]. *)
Example correlation_matrix_Mat2 :
  entry (_correlation_matrix [Mat2.sx; Mat2.sz] None) 0 1
  = Some (Mat2.mk 0 1 (-1) 0)
  /\ entry (_correlation_matrix [Mat2.sx; Mat2.sz] None) 1 0
     = Some (Mat2.mk 0 (-1) 1 0).
Proof. split; reflexivity. Qed.

Example wigner_covariance_matrix_R16 :
  wigner_covariance_matrix None None (Some Mat2.R16) None
  = Ok ((fun j => (fun i => Mat2.scal (Z.of_nat (5 * (i + j)))) <$> range 4)
          <$> range 4).
Proof. reflexivity. Qed.

Example wigner_covariance_matrix_small_R :
  wigner_covariance_matrix None None (Some [[Mat2.sx]]) None
  = Raise IndexError.
Proof. reflexivity. Qed.

Example wigner_logarithm_negativity_I4 :
  wigner_logarithm_negativity Mat2.I4 = Mat2.scal 0.
Proof. reflexivity. Qed.

Lemma covariance_matrix_entries_witness :
  [Mat2.sx; Mat2.sz; Mat2.lower] !! 0%nat = Some Mat2.sx
  /\ [Mat2.sx; Mat2.sz; Mat2.lower] !! 2%nat = Some Mat2.lower
  /\ entry (covariance_matrix [Mat2.sx; Mat2.sz; Mat2.lower] Mat2.up) 0 2
     = Some (Mat2.scal 1).
Proof.
  split; [reflexivity|]. split; [reflexivity|].
  exact (proj2 (covariance_matrix_entries
                  [Mat2.sx; Mat2.sz; Mat2.lower] Mat2.up)
               0%nat 2%nat Mat2.lower Mat2.sx eq_refl eq_refl).
Defined.

Lemma wigner_covariance_matrix_from_R_witness :
  has_shape 4 4 Mat2.R16
  /\ (forall x y : Mat2.t, (x + y)%py = (y + x)%py)
  /\ exists V,
       wigner_covariance_matrix None None (Some Mat2.R16) None = Ok V
       /\ has_shape 4 4 V
       /\ entry V 1 2 = Some (Mat2.scal 15).
Proof.
  split; [exact Mat2_R16_shape|]. split; [exact Mat2_add_comm|].
  destruct (wigner_covariance_matrix_from_R
              None None Mat2.R16 Mat2_R16_shape Mat2_add_comm)
    as [(V & HV & Hshape & Hentry) _].
  exists V. split; [exact HV|]. split; [exact Hshape|].
  exact (Hentry 1%nat 2%nat (Mat2.scal 6) (Mat2.scal 9) eq_refl eq_refl).
Defined.

Lemma wigner_covariance_matrix_errors_witness :
  (@None Mat2.t = None \/ Some Mat2.sx = None)
  /\ wigner_covariance_matrix None (Some Mat2.sx) None (Some Mat2.up)
     = Raise (ValueError
                "Must give either field operators (a1 and a2) or a precomputed correlation matrix (R)")
  /\ wigner_covariance_matrix_traced None (Some Mat2.sx) None (Some Mat2.up)
     = ([], Raise (ValueError
                     "Must give either field operators (a1 and a2) or a precomputed correlation matrix (R)")).
Proof.
  split; [left; reflexivity|].
  apply (proj2 wigner_covariance_matrix_errors). left; reflexivity.
Defined.

(** A call that returns does make calls, and they are in the log: four
    quadratures (18 calls), sixteen entries of eight calls each, and
    the array. *)
Example wigner_covariance_matrix_traced_field_mode :
  length (wigner_covariance_matrix_traced
            (Some Mat2.lower) (Some Mat2.sx) None (Some Mat2.up)).1
  = 147%nat
  /\ take 4 (wigner_covariance_matrix_traced
               (Some Mat2.lower) (Some Mat2.sx) None (Some Mat2.up)).1
     = [CallDag Mat2.lower;
        CallAdd Mat2.lower (dag Mat2.lower);
        CallSqrt (py_int 2);
        CallDiv (Mat2.lower + dag Mat2.lower)%py (np_sqrt (py_int 2))].
Proof. split; reflexivity. Qed.

(** Indexing a 1x1 array: the log ends with the index that raised. *)
Example wigner_covariance_matrix_traced_small_R :
  wigner_covariance_matrix_traced None None (Some [[Mat2.sx]]) None
  = ([CallGetitem [[Mat2.sx]] 0 0; CallGetitem [[Mat2.sx]] 0 0;
      CallAdd Mat2.sx Mat2.sx; CallReal (Mat2.sx + Mat2.sx)%py;
      CallGetitem [[Mat2.sx]] 1 0],
     Raise IndexError).
Proof. reflexivity. Qed.

(** With both field operators and neither [R] nor [rho], the message is
    not the string "Must give rho if using field operators": the
    message of the code goes on with " (a1 and a2)". *)
Lemma wigner_covariance_matrix_rho_message_counterexample :
  wigner_covariance_matrix (Some Mat2.lower) (Some Mat2.sx) None None
  <> Raise (ValueError "Must give rho if using field operators").
Proof. intros Heq. vm_compute in Heq. discriminate. Qed.

Lemma correlation_matrix_entries_witness :
  [Mat2.sx; Mat2.sz] !! 0%nat = Some Mat2.sx
  /\ [Mat2.sx; Mat2.sz] !! 1%nat = Some Mat2.sz
  /\ entry (_correlation_matrix [Mat2.sx; Mat2.sz] None) 0 1
     = Some (Mat2.mk 0 1 (-1) 0).
Proof.
  split; [reflexivity|]. split; [reflexivity|].
  exact (proj2 (proj1 (correlation_matrix_entries [Mat2.sx; Mat2.sz]))
               0%nat 1%nat Mat2.sx Mat2.sz eq_refl eq_refl).
Defined.

Lemma covariance_matrix_symmetric_witness :
  (forall x y : Mat2.t, (x + y)%py = (y + x)%py)
  /\ (forall a b : Mat2.t,
        (expect a Mat2.up * expect b Mat2.up)%py
        = (expect b Mat2.up * expect a Mat2.up)%py)
  /\ (0 < length [Mat2.sx; Mat2.sz; Mat2.lower])%nat
  /\ (2 < length [Mat2.sx; Mat2.sz; Mat2.lower])%nat
  /\ exists c,
       entry (covariance_matrix [Mat2.sx; Mat2.sz; Mat2.lower] Mat2.up) 0 2
       = Some c
       /\ entry (covariance_matrix [Mat2.sx; Mat2.sz; Mat2.lower] Mat2.up) 2 0
          = Some c.
Proof.
  split; [exact Mat2_add_comm|].
  split; [exact (fun a b => Mat2_expect_mul_comm a b Mat2.up)|].
  split; [simpl; lia|]. split; [simpl; lia|].
  apply (covariance_matrix_symmetric
           [Mat2.sx; Mat2.sz; Mat2.lower] Mat2.up
           Mat2_add_comm (fun a b => Mat2_expect_mul_comm a b Mat2.up));
    simpl; lia.
Defined.

Lemma wigner_covariance_matrix_one_field_missing_witness :
  wigner_covariance_matrix (Some Mat2.lower) (Some Mat2.sx) None None
  = Raise (ValueError "Must give rho if using field operators (a1 and a2)")
  /\ is_Some (Some Mat2.lower) /\ is_Some (Some Mat2.sx).
Proof.
  split; [reflexivity|].
  exact (proj2 wigner_covariance_matrix_one_field_missing
               (Some Mat2.lower) (Some Mat2.sx) None None eq_refl).
Defined.


(** ** More on comprehensions that may raise *)

Section Comprehensions.
Context {A B : Type}.

Lemma getitem2_spec (R : list (list A)) (i j : nat) :
  getitem2 R i j
  = match entry R i j with Some x => Ok x | None => Raise IndexError end.
Proof.
  unfold getitem2, entry. destruct (R !! i) as [row|]; simpl; [|done].
  by destruct (row !! j).
Qed.

(** A comprehension that returns has one element for each element of the
    list it runs over, in the same order. *)
Lemma mapM_Ok_length (f : A -> result B) (l : list A) (ys : list B) :
  mapM f l = Ok ys -> length ys = length l.
Proof.
  revert ys. induction l as [|a l IH]; intros ys; simpl.
  - by intros [= <-].
  - destruct (f a) as [b|e]; simpl; [|discriminate].
    destruct (mapM f l) as [bs|e]; simpl; [|discriminate].
    intros [= <-]. simpl. f_equal. by apply IH.
Qed.

Lemma mapM_Ok_lookup (f : A -> result B) (l : list A) (ys : list B) k x :
  mapM f l = Ok ys -> l !! k = Some x ->
  exists y, ys !! k = Some y /\ f x = Ok y.
Proof.
  revert ys k. induction l as [|a l IH]; intros ys k; simpl; [done|].
  destruct (f a) as [b|e] eqn:Hfa; simpl; [|discriminate].
  destruct (mapM f l) as [bs|e]; simpl; [|discriminate].
  intros [= <-]. destruct k as [|k]; simpl.
  - intros [= <-]. by exists b.
  - intros Hk. by apply IH.
Qed.

(** Two comprehensions over the same list with elements that agree. *)
Lemma mapM_ext_in (f g : A -> result B) (l : list A) :
  (forall x, x ∈ l -> f x = g x) -> mapM f l = mapM g l.
Proof.
  induction l as [|a l IH]; intros Hfg; simpl; [done|].
  rewrite (Hfg a) by left. rewrite IH; [done|].
  intros x Hx. apply Hfg. by right.
Qed.

(** Entry [i] of a slice [l[lo:hi]] is entry [lo + i] of [l]. *)
Lemma py_slice_lookup {T : Type} (l : list T) (lo hi i : nat) :
  (i < hi - lo)%nat -> py_slice lo hi l !! i = l !! (lo + i)%nat.
Proof.
  intros Hi. unfold py_slice. by rewrite lookup_take_lt, lookup_drop.
Qed.

Lemma entry_slice2 (V : list (list A)) (r0 r1 c0 c1 i j : nat) :
  (i < r1 - r0)%nat -> (j < c1 - c0)%nat ->
  entry (slice2 r0 r1 c0 c1 V) i j = entry V (r0 + i) (c0 + j).
Proof.
  intros Hi Hj. unfold entry, slice2.
  rewrite list_lookup_fmap, py_slice_lookup by done.
  destruct (V !! (r0 + i)%nat) as [row|]; simpl; [|done].
  by apply py_slice_lookup.
Qed.

(** A slice of two entries that are there. *)
Lemma py_slice_pair {T : Type} (l : list T) (k : nat) (x y : T) :
  l !! k = Some x -> l !! S k = Some y -> py_slice k (S (S k)) l = [x; y].
Proof.
  unfold py_slice. replace (S (S k) - k)%nat with 2%nat by lia.
  revert l. induction k as [|k IH]; intros [|a l]; simpl; try done.
  - intros [= ->]. destruct l as [|b l]; simpl; [done|].
    by intros [= ->].
  - apply IH.
Qed.

Lemma slice2_block (V : list (list A)) (r c : nat) (a b c' d : A) :
  entry V r c = Some a -> entry V r (S c) = Some b ->
  entry V (S r) c = Some c' -> entry V (S r) (S c) = Some d ->
  slice2 r (S (S r)) c (S (S c)) V = [[a; b]; [c'; d]].
Proof.
  unfold entry, slice2.
  destruct (V !! r) as [row|] eqn:Hrow; simpl; [|done].
  destruct (V !! S r) as [row'|] eqn:Hrow'; simpl; [|done].
  intros Ha Hb Hc Hd.
  rewrite (py_slice_pair V r row row' Hrow Hrow'). simpl.
  by rewrite (py_slice_pair row c a b Ha Hb),
             (py_slice_pair row' c c' d Hc Hd).
Qed.

End Comprehensions.

(** ** Further properties of the module *)

Section MoreProperties.
Context {value : Type} `{PyEnv value}.

(** When the [R] branch returns, it returns four rows of four entries,
    each built from the two entries of [R] it reads. *)
Lemma symmetrize_Ok (R : matrix value) (g : value -> value) (V : matrix value) :
  mapM (fun j =>
    mapM (fun i =>
      rij ← getitem2 R i j;
      rji ← getitem2 R j i;
      mret (g (rij + rji)%py)) (range 4)) (range 4)
  = Ok V ->
  has_shape 4 4 V
  /\ forall i j : nat, (i < 4)%nat -> (j < 4)%nat ->
       exists rij rji,
         entry R i j = Some rij /\ entry R j i = Some rji
         /\ entry V j i = Some (g (rij + rji)%py).
Proof.
  intros HV. split; [split|].
  - by rewrite (mapM_Ok_length _ _ _ HV).
  - apply Forall_lookup. intros k row Hrow.
    assert (Hk : (k < 4)%nat).
    { apply lookup_lt_Some in Hrow.
      by rewrite (mapM_Ok_length _ _ _ HV) in Hrow. }
    destruct (mapM_Ok_lookup _ _ _ k k HV) as (row' & Hrow' & Hinner);
      [by apply lookup_seq_lt|].
    rewrite Hrow in Hrow'. injection Hrow' as <-.
    by rewrite (mapM_Ok_length _ _ _ Hinner).
  - intros i j Hi Hj.
    destruct (mapM_Ok_lookup _ _ _ j j HV) as (row & Hrow & Hinner);
      [by apply lookup_seq_lt|].
    destruct (mapM_Ok_lookup _ _ _ i i Hinner) as (y & Hy & Hcell);
      [by apply lookup_seq_lt|].
    rewrite !getitem2_spec in Hcell.
    destruct (entry R i j) as [rij|]; simpl in Hcell; [|discriminate].
    destruct (entry R j i) as [rji|]; simpl in Hcell; [|discriminate].
    injection Hcell as <-. exists rij, rji. repeat split.
    unfold entry. by rewrite Hrow.
Qed.

Lemma symmetrize_raise (R : matrix value) (g : value -> value) (e : exn) :
  mapM (fun j =>
    mapM (fun i =>
      rij ← getitem2 R i j;
      rji ← getitem2 R j i;
      mret (g (rij + rji)%py)) (range 4)) (range 4)
  = Raise e ->
  e = IndexError.
Proof.
  intros Hout.
  apply mapM_raise in Hout as (j & _ & Hrow).
  apply mapM_raise in Hrow as (i & _ & Hcell).
  rewrite !getitem2_spec in Hcell.
  destruct (entry R i j); simpl in Hcell; [|by injection Hcell as <-].
  destruct (entry R j i); simpl in Hcell; [discriminate|].
  by injection Hcell as <-.
Qed.

Lemma symmetrize_ext (R R' : matrix value) (g : value -> value) :
  (forall i j : nat, (i < 4)%nat -> (j < 4)%nat -> entry R i j = entry R' i j) ->
  mapM (fun j =>
    mapM (fun i =>
      rij ← getitem2 R i j;
      rji ← getitem2 R j i;
      mret (g (rij + rji)%py)) (range 4)) (range 4)
  = mapM (fun j =>
      mapM (fun i =>
        rij ← getitem2 R' i j;
        rji ← getitem2 R' j i;
        mret (g (rij + rji)%py)) (range 4)) (range 4).
Proof.
  intros Hsame.
  apply mapM_ext_in. intros j Hj. apply elem_of_seq in Hj.
  apply mapM_ext_in. intros i Hi. apply elem_of_seq in Hi.
  rewrite !getitem2_spec, !Hsame by lia. done.
Qed.

(** The [R] branch, for both cases of [rho]. *)
Lemma wigner_covariance_matrix_R_branch
    (a1 a2 : option value) (R : matrix value) (rho : option value) :
  wigner_covariance_matrix a1 a2 (Some R) rho
  = mapM (fun j =>
      mapM (fun i =>
        rij ← getitem2 R i j;
        rji ← getitem2 R j i;
        mret (match rho with
              | None => np_real
              | Some rho => fun v => np_real (expect v rho)
              end (rij + rji)%py)) (range 4)) (range 4).
Proof. by destruct rho. Qed.

(** X1. The numeric mode of [_correlation_matrix] is its symbolic mode
    with [expect(., rho)] applied to every entry. *)
Theorem correlation_matrix_numeric_of_symbolic
    (basis : list value) (rho : value) :
  _correlation_matrix basis (Some rho)
  = fmap (M:=list) (fmap (M:=list) (fun op => expect op rho))
      (_correlation_matrix basis None).
Proof.
  unfold _correlation_matrix.
  rewrite <- list_fmap_compose. apply list_fmap_ext. intros k op2 _. simpl.
  by rewrite <- list_fmap_compose.
Qed.

(** X2. The entry of [covariance_matrix] in row [r], column [c] is the
    expectation of the sum of the entries [r, c] and [c, r] of the
    symbolic [_correlation_matrix], minus the product of the expectations
    of [basis[c]] and [basis[r]]. *)
Theorem covariance_of_correlation
    (basis : list value) (rho : value) (r c : nat) (b_r b_c : value) :
  basis !! r = Some b_r ->
  basis !! c = Some b_c ->
  exists m_rc m_cr,
    entry (_correlation_matrix basis None) r c = Some m_rc
    /\ entry (_correlation_matrix basis None) c r = Some m_cr
    /\ entry (covariance_matrix basis rho) r c
       = Some (expect (m_rc + m_cr) rho - expect b_c rho * expect b_r rho)%py.
Proof.
  intros Hr Hc. exists (b_c * b_r)%py, (b_r * b_c)%py. repeat split.
  - by apply (entry_comprehension (fun op1 op2 => (op1 * op2)%py)).
  - by apply (entry_comprehension (fun op1 op2 => (op1 * op2)%py)).
  - by apply covariance_matrix_entry.
Qed.

(** X3. The covariance matrix of a basis [b1 ++ b2] has the covariance
    matrix of [b1] as its upper left block and the covariance matrix of
    [b2] as its lower right block. *)
Theorem covariance_matrix_blocks (b1 b2 : list value) (rho : value) :
  let n := length b1 in
  let m := length b2 in
  slice2 0 n 0 n (covariance_matrix (b1 ++ b2) rho)
  = covariance_matrix b1 rho
  /\ slice2 n (n + m) n (n + m) (covariance_matrix (b1 ++ b2) rho)
     = covariance_matrix b2 rho.
Proof.
  intros n m. subst n m. unfold slice2, py_slice, covariance_matrix. split.
  - rewrite Nat.sub_0_r, drop_0.
    rewrite <- fmap_take, take_app_length, <- list_fmap_compose.
    apply list_fmap_ext. intros k op2 _. simpl.
    by rewrite drop_0, <- fmap_take, take_app_length.
  - replace (length b1 + length b2 - length b1)%nat with (length b2) by lia.
    rewrite <- fmap_drop, drop_app_length, <- fmap_take, firstn_all.
    rewrite <- list_fmap_compose.
    apply list_fmap_ext. intros k op2 _. simpl.
    by rewrite <- fmap_drop, drop_app_length, <- fmap_take, firstn_all.
Qed.

(** X4. Whenever [wigner_covariance_matrix] returns from its [R] branch,
    for an [R] of any shape, the result is 4x4 and its entry in row [j],
    column [i] is the real part of [R[i][j] + R[j][i]], taken under
    [expect(., rho)] when [rho] is given. *)
Theorem wigner_covariance_matrix_R_returns
    (a1 a2 : option value) (R : matrix value) (rho : option value)
    (V : matrix value) :
  wigner_covariance_matrix a1 a2 (Some R) rho = Ok V ->
  has_shape 4 4 V
  /\ forall i j : nat, (i < 4)%nat -> (j < 4)%nat ->
       exists rij rji,
         entry R i j = Some rij /\ entry R j i = Some rji
         /\ entry V j i
            = Some (match rho with
                    | None => np_real (rij + rji)%py
                    | Some rho => np_real (expect (rij + rji)%py rho)
                    end).
Proof.
  rewrite wigner_covariance_matrix_R_branch. intros HV.
  apply symmetrize_Ok in HV as [Hshape Hentry]. split; [done|].
  intros i j Hi Hj.
  destruct (Hentry i j Hi Hj) as (rij & rji & Hij & Hji & HVji).
  exists rij, rji. by destruct rho.
Qed.

(** X5. When [+] is commutative, what the [R] branch returns is
    symmetric: [V[i][j] = V[j][i]] for [i], [j] in 0..3, whether or not
    [R] is. *)
Theorem wigner_covariance_matrix_R_symmetric
    (a1 a2 : option value) (R : matrix value) (rho : option value)
    (V : matrix value) :
  (forall x y : value, (x + y)%py = (y + x)%py) ->
  wigner_covariance_matrix a1 a2 (Some R) rho = Ok V ->
  forall i j : nat, (i < 4)%nat -> (j < 4)%nat ->
    exists c : value, entry V i j = Some c /\ entry V j i = Some c.
Proof.
  intros Hcomm HV i j Hi Hj.
  rewrite wigner_covariance_matrix_R_branch in HV.
  apply symmetrize_Ok in HV as [_ Hentry].
  destruct (Hentry i j Hi Hj) as (rij & rji & Hij & Hji & HVji).
  destruct (Hentry j i Hj Hi) as (rji' & rij' & Hji' & Hij' & HVij).
  rewrite Hij in Hij'. injection Hij' as <-.
  rewrite Hji in Hji'. injection Hji' as <-.
  eexists. split; [exact HVij|]. by rewrite HVji, (Hcomm rij rji).
Qed.

(** X6. When [R] has no entry at some [i], [j] in 0..3 (fewer than four
    rows, or a row of fewer than four entries), the [R] branch of
    [wigner_covariance_matrix] raises IndexError, with or without [rho]. *)
Theorem wigner_covariance_matrix_R_too_small
    (a1 a2 : option value) (R : matrix value) (rho : option value)
    (i j : nat) :
  (i < 4)%nat -> (j < 4)%nat ->
  entry R i j = None ->
  wigner_covariance_matrix a1 a2 (Some R) rho = Raise IndexError.
Proof.
  intros Hi Hj Hnone. rewrite wigner_covariance_matrix_R_branch.
  match goal with |- ?m = _ => destruct m as [V|e] eqn:Hm end.
  - apply symmetrize_Ok in Hm as [_ Hentry].
    destruct (Hentry i j Hi Hj) as (rij & _ & Hij & _). congruence.
  - apply symmetrize_raise in Hm. by subst.
Qed.

(** X7. The [R] branch of [wigner_covariance_matrix] reads only the
    entries of [R] in rows 0..3 and columns 0..3: two arrays that agree
    there give the same result. *)
Theorem wigner_covariance_matrix_R_upper_left
    (a1 a2 : option value) (R R' : matrix value) (rho : option value) :
  (forall i j : nat, (i < 4)%nat -> (j < 4)%nat -> entry R i j = entry R' i j) ->
  wigner_covariance_matrix a1 a2 (Some R) rho
  = wigner_covariance_matrix a1 a2 (Some R') rho.
Proof.
  intros Hsame. rewrite !wigner_covariance_matrix_R_branch.
  by apply symmetrize_ext.
Qed.

(** X8. The two modes of [wigner_covariance_matrix] on the same fields
    and state.  With [basis = [x1, p1, x2, p2]] the quadratures of [a1],
    [a2]: from [R = correlation_matrix_quadrature(a1, a2)] and [rho] the
    entry in row [j], column [i] is
    [real(expect(basis[j]*basis[i] + basis[i]*basis[j], rho))]; from
    [a1], [a2] and [rho] it is
    [expect(basis[i]*basis[j] + basis[j]*basis[i], rho)
     - expect(basis[i], rho)*expect(basis[j], rho)]: only the second
    subtracts the product of the first moments, only the first takes the
    real part. *)
Theorem wigner_covariance_matrix_two_modes (a1 a2 rho : value) :
  let x1 := ((a1 + dag a1) / np_sqrt (py_int 2))%py in
  let p1 := (py_1j * (a1 - dag a1) / np_sqrt (py_int 2))%py in
  let x2 := ((a2 + dag a2) / np_sqrt (py_int 2))%py in
  let p2 := (py_1j * (a2 - dag a2) / np_sqrt (py_int 2))%py in
  let basis := [x1; p1; x2; p2] in
  exists VR Vf : matrix value,
    wigner_covariance_matrix
      None None (Some (correlation_matrix_quadrature a1 a2 None)) (Some rho)
    = Ok VR
    /\ wigner_covariance_matrix (Some a1) (Some a2) None (Some rho) = Ok Vf
    /\ forall (i j : nat) (b_i b_j : value),
         basis !! i = Some b_i -> basis !! j = Some b_j ->
         entry VR j i = Some (np_real (expect (b_j * b_i + b_i * b_j)%py rho))
         /\ entry Vf j i
            = Some (expect (b_i * b_j + b_j * b_i) rho
                    - expect b_i rho * expect b_j rho)%py.
Proof.
  intros x1 p1 x2 p2 basis.
  eexists. eexists. split; [reflexivity|]. split; [reflexivity|].
  intros i j b_i b_j Hi Hj.
  destruct i as [|[|[|[|i]]]]; destruct j as [|[|[|[|j]]]];
    simpl in Hi, Hj; try discriminate;
    injection Hi as <-; injection Hj as <-; split; reflexivity.
Qed.

(** X9. With [.dag()] an involution that reverses products, the symbolic
    [correlation_matrix_field(a1, a2)] is closed under [.dag()]: the
    conjugate of its entry in row [r], column [c] is its entry in row
    [c xor 1], column [r xor 1]. *)
Theorem correlation_matrix_field_dag (a1 a2 : value) :
  (forall x : value, dag (dag x) = x) ->
  (forall x y : value, dag (x * y)%py = (dag y * dag x)%py) ->
  forall (r c : nat) (m : value),
    entry (correlation_matrix_field a1 a2 None) r c = Some m ->
    entry (correlation_matrix_field a1 a2 None) (Nat.lxor c 1) (Nat.lxor r 1)
    = Some (dag m).
Proof.
  intros Hinv Hanti r c m Hm.
  destruct r as [|[|[|[|r]]]]; destruct c as [|[|[|[|c]]]];
    simpl in Hm; try discriminate;
    injection Hm as <-; cbn; rewrite Hanti, ?Hinv; reflexivity.
Qed.

(** X10. Whatever the mode, a result of [wigner_covariance_matrix] is a
    4x4 array. *)
Theorem wigner_covariance_matrix_returns_4x4
    (a1 a2 : option value) (R : option (matrix value)) (rho : option value)
    (V : matrix value) :
  wigner_covariance_matrix a1 a2 R rho = Ok V ->
  has_shape 4 4 V.
Proof.
  destruct R as [R|].
  - rewrite wigner_covariance_matrix_R_branch. intros HV.
    by apply symmetrize_Ok in HV as [Hshape _].
  - destruct a1 as [a1|], a2 as [a2|], rho as [rho|]; simpl;
      try discriminate.
    intros [= <-]. apply (has_shape_comprehension _ [_; _; _; _]).
Qed.

(** X11. [wigner_covariance_matrix] returns only in two cases: [R] is
    given and has an entry at every [i], [j] in 0..3; or [R] is omitted
    and [a1], [a2] and [rho] are all given. *)
Theorem wigner_covariance_matrix_returns_only_if
    (a1 a2 : option value) (R : option (matrix value)) (rho : option value)
    (V : matrix value) :
  wigner_covariance_matrix a1 a2 R rho = Ok V ->
  (exists R0, R = Some R0
     /\ forall i j : nat, (i < 4)%nat -> (j < 4)%nat ->
          is_Some (entry R0 i j))
  \/ (R = None /\ is_Some a1 /\ is_Some a2 /\ is_Some rho).
Proof.
  intros HV. destruct R as [R|].
  - left. exists R. split; [done|]. intros i j Hi Hj.
    rewrite wigner_covariance_matrix_R_branch in HV.
    apply symmetrize_Ok in HV as [_ Hentry].
    destruct (Hentry i j Hi Hj) as (rij & _ & Hij & _).
    rewrite Hij. by eexists.
  - right. destruct a1 as [a1|], a2 as [a2|], rho as [rho|];
      simpl in HV; try discriminate.
    repeat split; by eexists.
Qed.

(** X12. In field mode the upper left 2x2 block of the result depends on
    [a1] and [rho] only and the lower right block on [a2] and [rho] only:
    they are the covariance matrices of the quadratures of each mode. *)
Theorem wigner_covariance_matrix_mode_blocks (a1 a2 rho : value) :
  let x1 := ((a1 + dag a1) / np_sqrt (py_int 2))%py in
  let p1 := (py_1j * (a1 - dag a1) / np_sqrt (py_int 2))%py in
  let x2 := ((a2 + dag a2) / np_sqrt (py_int 2))%py in
  let p2 := (py_1j * (a2 - dag a2) / np_sqrt (py_int 2))%py in
  exists V : matrix value,
    wigner_covariance_matrix (Some a1) (Some a2) None (Some rho) = Ok V
    /\ slice2 0 2 0 2 V = covariance_matrix [x1; p1] rho
    /\ slice2 2 4 2 4 V = covariance_matrix [x2; p2] rho.
Proof.
  intros x1 p1 x2 p2. eexists. split; [reflexivity|].
  split; reflexivity.
Qed.

(** X13. For a square array [V] of any size whose first four rows and
    columns are the 4x4 array [v], [wigner_logarithm_negativity(V)] takes
    the three 2x2 blocks of [sigma] from [v], and the determinant under
    the inner square root from the whole of [V]. *)
Theorem wigner_logarithm_negativity_upper_left
    (n : nat) (V : matrix value)
    (v00 v01 v02 v03 v10 v11 v12 v13
     v20 v21 v22 v23 v30 v31 v32 v33 : value) :
  has_shape n n V ->
  slice2 0 4 0 4 V
  = [[v00; v01; v02; v03]; [v10; v11; v12; v13];
     [v20; v21; v22; v23]; [v30; v31; v32; v33]] ->
  let sigma :=
    (np_linalg_det [[v00; v01]; [v10; v11]]
     + np_linalg_det [[v22; v23]; [v32; v33]]
     - py_int 2 * np_linalg_det [[v02; v03]; [v12; v13]])%py in
  let nu :=
    np_sqrt (sigma / py_int 2
             - np_sqrt (sigma ^ py_int 2 - py_int 4 * np_linalg_det V)
               / py_int 2)%py in
  wigner_logarithm_negativity V
  = py_max (py_int 0) (- np_log (py_int 2 * nu))%py.
Proof.
  intros _ Hblock sigma nu.
  assert (Hentry : forall i j : nat, (i < 4)%nat -> (j < 4)%nat ->
            entry V i j
            = entry [[v00; v01; v02; v03]; [v10; v11; v12; v13];
                     [v20; v21; v22; v23]; [v30; v31; v32; v33]] i j).
  { intros i j Hi Hj. rewrite <- Hblock. by rewrite entry_slice2 by lia. }
  unfold wigner_logarithm_negativity.
  rewrite (slice2_block V 0 0 v00 v01 v10 v11),
          (slice2_block V 2 2 v22 v23 v32 v33),
          (slice2_block V 0 2 v02 v03 v12 v13);
    try (rewrite Hentry by lia; reflexivity).
  reflexivity.
Qed.

End MoreProperties.

(** ** The further properties on two-by-two matrices *)

Lemma Mat2_dag_involutive (x : Mat2.t) : dag (dag x) = x.
Proof. by destruct x. Qed.

Lemma Mat2_dag_mul (x y : Mat2.t) : dag (x * y)%py = (dag y * dag x)%py.
Proof.
  destruct x, y. cbn. unfold Mat2.transpose, Mat2.mul. cbn. f_equal; lia.
Qed.

Lemma Mat2_R16_wide_upper_left (i j : nat) :
  (i < 4)%nat -> (j < 4)%nat ->
  entry Mat2.R16 i j = entry Mat2_R16_wide i j.
Proof.
  intros Hi Hj.
  destruct i as [|[|[|[|i]]]]; [| | | |lia];
    (destruct j as [|[|[|[|j]]]]; [| | | |lia]); reflexivity.
Qed.

Example wigner_covariance_matrix_R25 :
  wigner_covariance_matrix None None (Some Mat2_R25) None
  = Ok ((fun j => (fun i => Mat2.scal (Z.of_nat (6 * (i + j)))) <$> range 4)
          <$> range 4).
Proof. reflexivity. Qed.

Lemma covariance_of_correlation_witness :
  [Mat2.sx; Mat2.sz; Mat2.lower] !! 0%nat = Some Mat2.sx
  /\ [Mat2.sx; Mat2.sz; Mat2.lower] !! 2%nat = Some Mat2.lower
  /\ exists m_rc m_cr,
       entry (_correlation_matrix [Mat2.sx; Mat2.sz; Mat2.lower] None) 0 2
       = Some m_rc
       /\ entry (_correlation_matrix [Mat2.sx; Mat2.sz; Mat2.lower] None) 2 0
          = Some m_cr
       /\ entry (covariance_matrix [Mat2.sx; Mat2.sz; Mat2.lower] Mat2.up) 0 2
          = Some (expect (m_rc + m_cr) Mat2.up
                  - expect Mat2.lower Mat2.up * expect Mat2.sx Mat2.up)%py.
Proof.
  split; [reflexivity|]. split; [reflexivity|].
  exact (covariance_of_correlation
           [Mat2.sx; Mat2.sz; Mat2.lower] Mat2.up 0 2 Mat2.sx Mat2.lower
           eq_refl eq_refl).
Defined.

Lemma wigner_covariance_matrix_R_returns_witness :
  wigner_covariance_matrix None None (Some Mat2_R25) None
  = Ok ((fun j => (fun i => Mat2.scal (Z.of_nat (6 * (i + j)))) <$> range 4)
          <$> range 4)
  /\ has_shape 4 4
       ((fun j => (fun i => Mat2.scal (Z.of_nat (6 * (i + j)))) <$> range 4)
          <$> range 4).
Proof.
  split; [reflexivity|].
  exact (proj1 (wigner_covariance_matrix_R_returns
                  None None Mat2_R25 None _ eq_refl)).
Defined.

Lemma wigner_covariance_matrix_R_symmetric_witness :
  (forall x y : Mat2.t, (x + y)%py = (y + x)%py)
  /\ wigner_covariance_matrix None None (Some Mat2_R25) (Some Mat2.up)
     = Ok ((fun j => (fun i => Mat2.scal (Z.of_nat (6 * (i + j)))) <$> range 4)
             <$> range 4)
  /\ (1 < 4)%nat /\ (3 < 4)%nat
  /\ exists c : Mat2.t,
       entry ((fun j => (fun i => Mat2.scal (Z.of_nat (6 * (i + j))))
                          <$> range 4) <$> range 4) 1 3 = Some c
       /\ entry ((fun j => (fun i => Mat2.scal (Z.of_nat (6 * (i + j))))
                             <$> range 4) <$> range 4) 3 1 = Some c.
Proof.
  split; [exact Mat2_add_comm|]. split; [reflexivity|].
  split; [lia|]. split; [lia|].
  apply (wigner_covariance_matrix_R_symmetric
           None None Mat2_R25 (Some Mat2.up) _ Mat2_add_comm eq_refl); lia.
Defined.

Lemma wigner_covariance_matrix_R_too_small_witness :
  (3 < 4)%nat /\ (0 < 4)%nat
  /\ entry Mat2_R34 3 0 = None
  /\ wigner_covariance_matrix None None (Some Mat2_R34) None
     = Raise IndexError.
Proof.
  split; [lia|]. split; [lia|]. split; [reflexivity|].
  apply (wigner_covariance_matrix_R_too_small None None Mat2_R34 None 3 0);
    [lia | lia | reflexivity].
Defined.

Lemma wigner_covariance_matrix_R_upper_left_witness :
  (forall i j : nat, (i < 4)%nat -> (j < 4)%nat ->
     entry Mat2.R16 i j = entry Mat2_R16_wide i j)
  /\ wigner_covariance_matrix None None (Some Mat2.R16) None
     = wigner_covariance_matrix None None (Some Mat2_R16_wide) None.
Proof.
  split; [exact Mat2_R16_wide_upper_left|].
  exact (wigner_covariance_matrix_R_upper_left
           None None Mat2.R16 Mat2_R16_wide None Mat2_R16_wide_upper_left).
Defined.

Lemma correlation_matrix_field_dag_witness :
  (forall x : Mat2.t, dag (dag x) = x)
  /\ (forall x y : Mat2.t, dag (x * y)%py = (dag y * dag x)%py)
  /\ entry (correlation_matrix_field Mat2.lower Mat2.sz None) 0 2
     = Some (Mat2.sz * Mat2.lower)%py
  /\ entry (correlation_matrix_field Mat2.lower Mat2.sz None) 3 1
     = Some (dag (Mat2.sz * Mat2.lower)%py).
Proof.
  split; [exact Mat2_dag_involutive|]. split; [exact Mat2_dag_mul|].
  split; [reflexivity|].
  exact (correlation_matrix_field_dag
           Mat2.lower Mat2.sz Mat2_dag_involutive Mat2_dag_mul
           0 2 (Mat2.sz * Mat2.lower)%py eq_refl).
Defined.

Lemma wigner_covariance_matrix_returns_4x4_witness :
  wigner_covariance_matrix (Some Mat2.lower) (Some Mat2.sx) None (Some Mat2.up)
  = Ok (covariance_matrix
          [((Mat2.lower + dag Mat2.lower) / np_sqrt (py_int 2))%py;
           (py_1j * (Mat2.lower - dag Mat2.lower) / np_sqrt (py_int 2))%py;
           ((Mat2.sx + dag Mat2.sx) / np_sqrt (py_int 2))%py;
           (py_1j * (Mat2.sx - dag Mat2.sx) / np_sqrt (py_int 2))%py]
          Mat2.up)
  /\ has_shape 4 4
       (covariance_matrix
          [((Mat2.lower + dag Mat2.lower) / np_sqrt (py_int 2))%py;
           (py_1j * (Mat2.lower - dag Mat2.lower) / np_sqrt (py_int 2))%py;
           ((Mat2.sx + dag Mat2.sx) / np_sqrt (py_int 2))%py;
           (py_1j * (Mat2.sx - dag Mat2.sx) / np_sqrt (py_int 2))%py]
          Mat2.up).
Proof.
  split; [reflexivity|].
  exact (wigner_covariance_matrix_returns_4x4
           (Some Mat2.lower) (Some Mat2.sx) None (Some Mat2.up) _ eq_refl).
Defined.

Lemma wigner_covariance_matrix_returns_only_if_witness :
  wigner_covariance_matrix None None (Some Mat2_R25) None
  = Ok ((fun j => (fun i => Mat2.scal (Z.of_nat (6 * (i + j)))) <$> range 4)
          <$> range 4)
  /\ ((exists R0, Some Mat2_R25 = Some R0
         /\ forall i j : nat, (i < 4)%nat -> (j < 4)%nat ->
              is_Some (entry R0 i j))
      \/ (Some Mat2_R25 = None /\ is_Some (@None Mat2.t)
          /\ is_Some (@None Mat2.t) /\ is_Some (@None Mat2.t))).
Proof.
  split; [reflexivity|].
  exact (wigner_covariance_matrix_returns_only_if
           None None (Some Mat2_R25) None _ eq_refl).
Defined.

Lemma wigner_covariance_matrix_two_modes_witness :
  exists VR Vf : matrix Mat2.t,
    wigner_covariance_matrix
      None None (Some (correlation_matrix_quadrature Mat2.lower Mat2.sx None))
      (Some Mat2_ones) = Ok VR
    /\ wigner_covariance_matrix
         (Some Mat2.lower) (Some Mat2.sx) None (Some Mat2_ones) = Ok Vf
    /\ entry VR 2 0 = Some (Mat2.scal 8)
    /\ entry Vf 2 0 = Some (Mat2.scal 0).
Proof.
  destruct (wigner_covariance_matrix_two_modes Mat2.lower Mat2.sx Mat2_ones)
    as (VR & Vf & HVR & HVf & Hentry).
  exists VR, Vf. split; [exact HVR|]. split; [exact HVf|].
  exact (Hentry 0%nat 2%nat _ _ eq_refl eq_refl).
Defined.

Lemma Mat2_R25_upper_left :
  slice2 0 4 0 4 Mat2_R25
  = (fun i => (fun j => Mat2.scal (Z.of_nat (5 * i + j))) <$> range 4)
      <$> range 4.
Proof. reflexivity. Qed.

Lemma Mat2_R25_shape : has_shape 5 5 Mat2_R25.
Proof. split; [reflexivity | repeat constructor]. Qed.

Lemma wigner_logarithm_negativity_upper_left_witness :
  has_shape 5 5 Mat2_R25
  /\ slice2 0 4 0 4 Mat2_R25
     = (fun i => (fun j => Mat2.scal (Z.of_nat (5 * i + j))) <$> range 4)
         <$> range 4
  /\ wigner_logarithm_negativity Mat2_R25 = Mat2.scal 0.
Proof.
  split; [exact Mat2_R25_shape|]. split; [exact Mat2_R25_upper_left|].
  exact (wigner_logarithm_negativity_upper_left
           5 Mat2_R25 _ _ _ _ _ _ _ _ _ _ _ _ _ _ _ _
           Mat2_R25_shape Mat2_R25_upper_left).
Defined.

(** ** The logged functions compute what the functions compute *)

Section TracedResults.
Context {value : Type} `{PyEnv value}.

Lemma traced_bind_result {A B : Type}
    (m : traced value A) (f : A -> traced value B) :
  (m ≫= f).2 = m.2 ≫= (fun a => (f a).2).
Proof. destruct m as [log [a|e]]; reflexivity. Qed.

Lemma traced_mapM_result {A B : Type} (f : A -> traced value B) (l : list A) :
  (mapM f l).2 = mapM (fun x => (f x).2) l.
Proof.
  induction l as [|a l IH]; simpl; [reflexivity|].
  rewrite traced_bind_result.
  destruct (f a) as [log [b|e]]; simpl; [|reflexivity].
  rewrite traced_bind_result, IH.
  by destruct (mapM (fun x => (f x).2) l).
Qed.

Ltac traced_mapM :=
  match goal with
  | |- context [(mapM ?f ?l).2] => rewrite (traced_mapM_result f l)
  end.

Lemma mapM_all_Ok {A B : Type} (f : A -> result B) (g : A -> B) (l : list A) :
  (forall x, f x = Ok (g x)) -> mapM f l = Ok (g <$> l).
Proof.
  intros Hfg. induction l as [|a l IH]; simpl; [reflexivity|].
  by rewrite Hfg, IH.
Qed.

Lemma result_bind_Ok {A : Type} (m : result A) : m ≫= Ok = m.
Proof. by destruct m. Qed.

(** The outcome of the logged [covariance_matrix] is [covariance_matrix]. *)
Lemma covariance_matrix_traced_result (basis : list value) (rho : value) :
  (covariance_matrix_traced basis rho).2 = Ok (covariance_matrix basis rho).
Proof.
  unfold covariance_matrix_traced, covariance_matrix, matrix.
  rewrite traced_bind_result. traced_mapM.
  rewrite (mapM_all_Ok _
             (fun op2 =>
                (fun op1 => (expect (op1 * op2 + op2 * op1) rho
                             - expect op1 rho * expect op2 rho)%py)
                  <$> basis)); [reflexivity|].
  intros op2. traced_mapM.
  by apply mapM_all_Ok.
Qed.

(** The outcome of the logged [wigner_covariance_matrix] is
    [wigner_covariance_matrix], on every input. *)
Lemma wigner_covariance_matrix_traced_result
    (a1 a2 : option value) (R : option (matrix value)) (rho : option value) :
  (wigner_covariance_matrix_traced a1 a2 R rho).2
  = wigner_covariance_matrix a1 a2 R rho.
Proof.
  destruct R as [R|].
  - destruct rho as [rho|].
    all: unfold wigner_covariance_matrix_traced, wigner_covariance_matrix,
           matrix.
    all: cbv beta iota.
    all: rewrite traced_bind_result; traced_mapM.
    all: etransitivity; [apply result_bind_Ok|].
    all: apply mapM_ext_in; intros j _; traced_mapM.
    all: apply mapM_ext_in; intros i _; unfold t_getitem.
    all: destruct (getitem2 R i j); [|reflexivity].
    all: destruct (getitem2 R j i); reflexivity.
  - destruct a1 as [a1|], a2 as [a2|], rho as [rho|]; reflexivity.
Qed.

End TracedResults.
